(** * C-zlib-Demo: the round trip of [src/main.c], verified

    The repository is one C function, [main], which compresses a fixed text
    with zlib's [compress], expands it again with [uncompress], prints both
    texts, and then reports the libpng version it was built against and the
    one it runs with.

    The embedding follows the C text statement by statement.  The automatic
    variables of [main] are a record, the external routines are fields of an
    [environment], and every observable action (a call into a library, a line
    written to a stream) is appended to a trace.  An access outside an array
    is undefined behaviour in C and is an outcome of its own here. *)

From Stdlib Require Import Strings.Byte Strings.Ascii.
From stdpp Require Import base tactics option numbers list strings pretty.

Local Open Scope N_scope.

(** ** Bytes and C strings *)

#[global] Instance byte_eq_dec : EqDecision byte := Byte.byte_eq_dec.

(** [strlen p]: the offset of the first zero byte of the object [p];
    [None] when the object holds no terminator, where C reads past its end. *)
Fixpoint strlen (p : list byte) : option nat :=
  match p with
  | [] => None
  | x00 :: _ => Some 0%nat
  | _ :: p' => S <$> strlen p'
  end.

(** What [printf("%s", p)] prints: the bytes before the terminator. *)
Definition c_str (p : list byte) : option string :=
  n ← strlen p; Some (String.string_of_list_byte (take n p)).

(** A string literal in memory: its characters, then the terminator. *)
Definition literal (s : string) : list byte := String.list_byte_of_string s ++ [x00].

(** ** zlib.h and png.h: the external interface *)

(** [int] is [Z]; [uLong], [unsigned long] and [png_uint_32] are [N].  The
    program stores, passes and compares these values and does no arithmetic
    on them, so nothing can wrap around. *)
Definition Z_OK : Z := 0.
Definition Z_DATA_ERROR : Z := (-3).
Definition Z_MEM_ERROR : Z := (-4).
Definition Z_BUF_ERROR : Z := (-5).

(** What a call [f(dest, &destLen, source, sourceLen)] leaves behind: the
    status it returns, the bytes it stored from [dest[0]] on, and the value
    it left in [destLen]. *)
Record reply := Reply { ret : Z; dest : list byte; destLen : N }.

(** The two buffer-to-buffer routines of the compression library.  A routine
    is given the capacity [destLen] of the destination and the [sourceLen]
    bytes of the source.  Whatever else it does, it stays inside the
    destination it was given: that is the part of the C interface every
    implementation, a test double included, has to respect. *)
Record zlib := Zlib {
  compress : N → list byte → reply;
  uncompress : N → list byte → reply;
  compress_in_dest : ∀ cap src, N.of_nat (length (dest (compress cap src))) ≤ cap;
  uncompress_in_dest : ∀ cap src, N.of_nat (length (dest (uncompress cap src))) ≤ cap
}.

(** Everything [main] takes from outside: the two libraries and the
    indeterminate contents of its uninitialised arrays. *)
Record environment := Environment {
  libz : zlib;
  PNG_LIBPNG_VER_STRING : string;
  png_access_version_number : N;
  indeterminate : nat → byte
}.

(** ** Observable actions *)

Inductive event :=
| Compress (status : Z)
| Uncompress (status : Z)
| PngAccessVersionNumber (version : N)
| Stdout (line : string)
| Stderr (line : string).

#[global] Instance event_eq_dec : EqDecision event.
Proof. solve_decision. Defined.

Definition stdout (t : list event) : list string :=
  omap (λ e, match e with Stdout s => Some s | _ => None end) t.

Definition stderr (t : list event) : list string :=
  omap (λ e, match e with Stderr s => Some s | _ => None end) t.

(** ** The automatic variables of [main] and the program monad *)

Record frame := Frame {
  compressed : list byte;
  decompressed : list byte;
  compressedSize : N;
  decompressedSize : N;
  trace : list event
}.

(** A statement either falls through with a value, leaves [main] through
    [return code], or has no defined behaviour. *)
Inductive result (A : Type) :=
| Next (a : A)
| Return (code : Z)
| Undefined.
Arguments Next {A} a.
Arguments Return {A} code.
Arguments Undefined {A}.

Definition prog (A : Type) : Type := frame → result A * frame.

Definition pure {A} (a : A) : prog A := λ f, (Next a, f).

Definition bind {A B} (m : prog A) (k : A → prog B) : prog B := λ f,
  match m f with
  | (Next a, f') => k a f'
  | (Return c, f') => (Return c, f')
  | (Undefined, f') => (Undefined, f')
  end.

Declare Scope prog_scope.
Delimit Scope prog_scope with prog.
Notation "x <- m ;; k" := (bind m (λ x, k))
  (at level 100, m at next level, right associativity) : prog_scope.
Notation "m ;; k" := (bind m (λ _, k))
  (at level 100, right associativity) : prog_scope.

Definition return_ {A} (code : Z) : prog A := λ f, (Return code, f).

Definition emit (e : event) : prog unit := λ f,
  (Next (), Frame (compressed f) (decompressed f) (compressedSize f)
                  (decompressedSize f) (trace f ++ [e])).

Definition printf (line : string) : prog unit := emit (Stdout line).
Definition fprintf_stderr (line : string) : prog unit := emit (Stderr line).

(** [if (c) { body }] *)
Definition when (c : bool) (body : prog unit) : prog unit :=
  if c then body else pure ().

(** [sizeof] of an array of [unsigned char]. *)
Definition sizeof (a : list byte) : N := N.of_nat (length a).

(** The bytes a routine stored, laid over the start of the array. *)
Definition blit (new old : list byte) : list byte :=
  new ++ drop (length new) old.

(** A call [f(dst, &dstLen, src, srcLen)].  The caller has to own [dstLen]
    bytes at [dst] and [srcLen] bytes at [src]; a call that promises more
    than the objects hold has no defined behaviour. *)
Definition call (f : N → list byte → reply)
    (dst : list byte) (dstLen : N) (src : list byte) (srcLen : N) : option reply :=
  if decide (dstLen ≤ sizeof dst ∧ srcLen ≤ sizeof src)
  then Some (f dstLen (take (N.to_nat srcLen) src))
  else None.

Definition LF : string := String "010"%char "".

(** [unsigned long] printed with [%lu]. *)
Definition lu (n : N) : string := pretty n.

(** ** The statements of [main]

    The repository holds two versions of the program, [src/main.c] and an
    earlier one without the libpng part.  Their declarations and their calls
    into zlib are the same text. *)

(** [const char* text = "Hello from zlib via conda forge!";]
    The literal holds no zero byte, so a [%s] prints all of it
    ([c_str_text] below). *)
Definition text : string := "Hello from zlib via conda forge!".

(** The declarations at the head of [main]:
    [unsigned char compressed[100]; unsigned char decompressed[100];
     uLong compressedSize = sizeof(compressed);
     uLong decompressedSize = sizeof(decompressed);] *)
Definition entry (env : environment) : frame :=
  let compressed := indeterminate env <$> seq 0 100 in
  let decompressed := indeterminate env <$> seq 100 100 in
  Frame compressed decompressed (sizeof compressed) (sizeof decompressed) [].

(** [compress(compressed, &compressedSize, (const Bytef* )text, strlen(text))] *)
Definition call_compress (env : environment) : prog Z := λ f,
  match strlen (literal text) with
  | None => (Undefined, f)
  | Some n =>
    match call (compress (libz env)) (compressed f) (compressedSize f)
               (literal text) (N.of_nat n) with
    | None => (Undefined, f)
    | Some r =>
      (Next (ret r),
       Frame (blit (dest r) (compressed f)) (decompressed f)
             (destLen r) (decompressedSize f)
             (trace f ++ [Compress (ret r)]))
    end
  end.

(** [uncompress(decompressed, &decompressedSize, compressed, compressedSize)] *)
Definition call_uncompress (env : environment) : prog Z := λ f,
  match call (uncompress (libz env)) (decompressed f) (decompressedSize f)
             (compressed f) (compressedSize f) with
  | None => (Undefined, f)
  | Some r =>
    (Next (ret r),
     Frame (compressed f) (blit (dest r) (decompressed f))
           (compressedSize f) (destLen r)
           (trace f ++ [Uncompress (ret r)]))
  end.

(** [decompressed[decompressedSize] = '\0';] *)
Definition terminate_decompressed : prog unit := λ f,
  let i := N.to_nat (decompressedSize f) in
  if decide (i < length (decompressed f))%nat
  then (Next (),
        Frame (compressed f) (<[i := x00]> (decompressed f))
              (compressedSize f) (decompressedSize f) (trace f))
  else (Undefined, f).

(** The argument [decompressed] of a [%s]. *)
Definition decompressed_str : prog string := λ f,
  match c_str (decompressed f) with
  | Some s => (Next s, f)
  | None => (Undefined, f)
  end.

(** [png_access_version_number()] *)
Definition call_png_access_version_number (env : environment) : prog N := λ f,
  let v := png_access_version_number env in
  (Next v,
   Frame (compressed f) (decompressed f) (compressedSize f) (decompressedSize f)
         (trace f ++ [PngAccessVersionNumber v])).

Local Open Scope prog_scope.

(** ** src/main.c *)

Module main_c.

Definition main (env : environment) : prog Empty_set :=
  (* Compress *)
  rc <- call_compress env ;;
  when (bool_decide (rc ≠ Z_OK)) (
    printf ("Fehler bei compress()" +:+ LF) ;;
    return_ 1
  ) ;;
  (* Decompress *)
  rc <- call_uncompress env ;;
  when (bool_decide (rc ≠ Z_OK)) (
    printf ("Fehler bei uncompress()" +:+ LF) ;;
    return_ 1
  ) ;;
  terminate_decompressed ;;
  printf ("Original:     " +:+ text +:+ LF) ;;
  s <- decompressed_str ;;
  printf ("Dekomprimiert: " +:+ s +:+ LF) ;;
  (* libpng: compile-time and runtime version *)
  printf (LF +:+ "libpng compile-time version: "
             +:+ PNG_LIBPNG_VER_STRING env +:+ LF) ;;
  png_runtime_ver <- call_png_access_version_number env ;;
  printf ("libpng runtime version (numeric): " +:+ lu png_runtime_ver +:+ LF) ;;
  when (bool_decide (png_runtime_ver = 0%N)) (
    fprintf_stderr
      ("Fehler: libpng Runtime-Version konnte nicht ermittelt werden!" +:+ LF) ;;
    return_ 1
  ) ;;
  printf ("zlib und libpng sind erfolgreich gelinkt und verwendbar." +:+ LF) ;;
  return_ 0.

End main_c.

(** ** The earlier version of the program (zlib only) *)

Module part_002.

Definition main (env : environment) : prog Empty_set :=
  (* Compress *)
  rc <- call_compress env ;;
  when (bool_decide (rc ≠ Z_OK)) (
    printf ("Fehler bei compress()" +:+ LF) ;;
    return_ 1
  ) ;;
  (* Decompress *)
  rc <- call_uncompress env ;;
  when (bool_decide (rc ≠ Z_OK)) (
    printf ("Fehler bei uncompress()" +:+ LF) ;;
    return_ 1
  ) ;;
  terminate_decompressed ;;
  printf ("Original: " +:+ text +:+ LF) ;;
  s <- decompressed_str ;;
  printf ("Dekomprimiert: " +:+ s +:+ LF) ;;
  return_ 0.

End part_002.

Local Close Scope prog_scope.

(** The process: [main] started on its entry frame.  Its exit status is the
    value [main] returns. *)
Definition run (main : environment → prog Empty_set) (env : environment)
  : result Empty_set * frame := main env (entry env).

Definition exit_status (r : result Empty_set) : option Z :=
  match r with
  | Return c => Some c
  | _ => None
  end.

(** What a run shows: its exit status, its trace, and the frame it ends in. *)
Definition status (main : environment → prog Empty_set) (env : environment)
  : option Z := exit_status (run main env).1.

Definition events (main : environment → prog Empty_set) (env : environment)
  : list event := trace (run main env).2.

Definition final (main : environment → prog Empty_set) (env : environment)
  : frame := (run main env).2.

(** ** The library's contract *)

(** An encoder and its decoder: the algorithm inside the library, which the
    program never looks into. *)
Record codec := Codec {
  deflate : list byte → list byte;
  inflate : list byte → option (list byte)
}.

(** Modelled from the spec: the compression primitive (zlib's [compress],
    whose code is not in the repository).  It takes raw bytes and produces the
    encoded byte sequence; an output longer than the declared capacity is
    rejected with a failure status, and only what fits is stored. *)
Definition codec_compress (c : codec) (cap : N) (src : list byte) : reply :=
  let out := deflate c src in
  if decide (N.of_nat (length out) ≤ cap)
  then Reply Z_OK out (N.of_nat (length out))
  else Reply Z_BUF_ERROR (take (N.to_nat cap) out) cap.

(** Modelled from the spec: the decompression primitive (zlib's
    [uncompress], whose code is not in the repository), the inverse routine:
    it reconstructs the original bytes from the encoded sequence, reports
    corrupt input, and rejects an output longer than the declared capacity. *)
Definition codec_uncompress (c : codec) (cap : N) (src : list byte) : reply :=
  match inflate c src with
  | None => Reply Z_DATA_ERROR [] 0
  | Some out =>
    if decide (N.of_nat (length out) ≤ cap)
    then Reply Z_OK out (N.of_nat (length out))
    else Reply Z_BUF_ERROR (take (N.to_nat cap) out) cap
  end.

(** The library built around a codec.  Both routines stay inside the
    destination: they store all of the output when it fits and only its first
    [cap] bytes when it does not. *)
Definition zlib_of_codec (c : codec) : zlib.
Proof.
  refine (Zlib (codec_compress c) (codec_uncompress c) _ _); intros cap src.
  - unfold codec_compress. case_decide; simpl; [done|].
    rewrite length_take. lia.
  - unfold codec_uncompress. destruct (inflate c src); simpl; [|lia].
    case_decide; simpl; [done|]. rewrite length_take. lia.
Defined.

(** Modelled from the spec: what the program relies on from the external
    compression library (its code is not in the repository).  On success a
    routine leaves in [destLen] the number of bytes it stored, and
    decompression is the inverse of compression: whenever it accepts the
    output of a successful compression, it reconstructs the original bytes. *)
Record zlib_contract (L : zlib) : Prop := {
  compress_destLen : ∀ cap src,
    ret (compress L cap src) = Z_OK →
    destLen (compress L cap src) = N.of_nat (length (dest (compress L cap src)));
  uncompress_destLen : ∀ cap src,
    ret (uncompress L cap src) = Z_OK →
    destLen (uncompress L cap src) = N.of_nat (length (dest (uncompress L cap src)));
  uncompress_compress : ∀ cap cap' src,
    ret (compress L cap src) = Z_OK →
    ret (uncompress L cap' (dest (compress L cap src))) = Z_OK →
    dest (uncompress L cap' (dest (compress L cap src))) = src
}.

(** ** A reference codec: the zlib container around stored blocks

    The smallest encoder whose output every zlib accepts: the two-byte
    header of RFC 1950, the input cut into stored (uncompressed) blocks of
    RFC 1951, and the Adler-32 checksum of the input, most significant byte
    first.  It inhabits the contract above. *)

Module Stored.

Definition byte_of_N (n : N) : byte := default x00 (Byte.of_N (n mod 256)).

Definition le16 (n : N) : list byte := [byte_of_N n; byte_of_N (n / 256)].

Definition be32 (n : N) : list byte :=
  [byte_of_N (n / 16777216); byte_of_N (n / 65536); byte_of_N (n / 256); byte_of_N n].

Definition adler32 (s : list byte) : N :=
  let '(a, b) :=
    foldl (λ '(a, b) x, let a' := (a + Byte.to_N x) mod 65521 in
                        (a', (b + a') mod 65521)) (1, 0) s in
  b * 65536 + a.

Fixpoint blocks (fuel : nat) (s : list byte) : list byte :=
  match fuel with
  | O => []
  | S fuel' =>
    let n := N.of_nat (length s) in
    if decide (n ≤ 65535)
    then x01 :: le16 n ++ le16 (65535 - n) ++ s
    else x00 :: le16 65535 ++ le16 0 ++ take (N.to_nat 65535) s
             ++ blocks fuel' (drop (N.to_nat 65535) s)
  end.

Definition encode (s : list byte) : list byte :=
  [x78; x01] ++ blocks (S (length s)) s ++ be32 (adler32 s).

Fixpoint unblocks (fuel : nat) (z : list byte) : option (list byte * list byte) :=
  match fuel with
  | O => None
  | S fuel' =>
    match z with
    | h :: l0 :: l1 :: n0 :: n1 :: z' =>
      let len := Byte.to_N l0 + 256 * Byte.to_N l1 in
      let nlen := Byte.to_N n0 + 256 * Byte.to_N n1 in
      if decide (len + nlen = 65535 ∧ len ≤ N.of_nat (length z')) then
        let data := take (N.to_nat len) z' in
        let rest := drop (N.to_nat len) z' in
        match h with
        | x01 => Some (data, rest)
        | x00 => '(more, rest') ← unblocks fuel' rest; Some (data ++ more, rest')
        | _ => None
        end
      else None
    | _ => None
    end
  end.

Definition decode (z : list byte) : option (list byte) :=
  match z with
  | cmf :: flg :: z' =>
    if decide (cmf = x78 ∧ (256 * Byte.to_N cmf + Byte.to_N flg) mod 31 = 0
               ∧ N.testbit (Byte.to_N flg) 5 = false) then
      '(s, trailer) ← unblocks (length z') z';
      if decide (trailer = be32 (adler32 s)) then Some s else None
    else None
  | _ => None
  end.

Definition stored : codec := Codec encode decode.

End Stored.

(** ** Environments to run the program in *)

(** A test double: both routines answer with a fixed reply, cut to the
    capacity they are given. *)
Definition test_double (c u : reply) : zlib.
Proof.
  refine (Zlib (λ cap _, Reply (ret c) (take (N.to_nat cap) (dest c)) (destLen c))
               (λ cap _, Reply (ret u) (take (N.to_nat cap) (dest u)) (destLen u))
               _ _);
    intros cap _; simpl; rewrite length_take; lia.
Defined.

(** What the arrays happen to hold before they are written. *)
Definition stale (i : nat) : byte := Stored.byte_of_N (37 * N.of_nat i + 11).

(** The reference codec and a libpng 1.6.43. *)
Definition reference : environment :=
  Environment (zlib_of_codec Stored.stored) "1.6.43" 10643 stale.

(** The same, with a libpng that cannot tell its version. *)
Definition no_version : environment :=
  Environment (zlib_of_codec Stored.stored) "1.6.43" 0 stale.

(** [compress] runs out of memory. *)
Definition compress_fails : environment :=
  Environment (test_double (Reply Z_MEM_ERROR [] 0) (Reply Z_OK [] 0))
              "1.6.43" 10643 stale.

(** [uncompress] finds its input corrupt. *)
Definition uncompress_fails : environment :=
  Environment (zlib_of_codec (Codec Stored.encode (λ _, None)))
              "1.6.43" 10643 stale.

(** [uncompress] reports success and hands back another text. *)
Definition other_text : environment :=
  Environment (zlib_of_codec
                 (Codec Stored.encode
                        (λ _, Some (String.list_byte_of_string "Goodbye"))))
              "1.6.43" 10643 stale.

(** [uncompress] reports success and fills the whole array. *)
Definition full_array : environment :=
  Environment (zlib_of_codec (Codec Stored.encode (λ _, Some (replicate 100 x41))))
              "1.6.43" 10643 stale.

(** An encoder whose output is larger than the array that receives it. *)
Definition bulky : environment :=
  Environment (zlib_of_codec
                 (Codec (λ s, Stored.encode (s ++ replicate 100 x00)) Stored.decode))
              "1.6.43" 10643 stale.

(** ** The paths through [main] *)

(** The [strlen(text)] bytes at [text]. *)
Definition input : list byte := String.list_byte_of_string text.

Section Run.
Context (env : environment).

(** What the two calls answer, and the arrays they leave. *)
Definition compress_reply : reply := compress (libz env) 100 input.

Definition compressed_filled : list byte :=
  blit (dest compress_reply) (compressed (entry env)).

Definition uncompress_reply : reply :=
  uncompress (libz env) 100
    (take (N.to_nat (destLen compress_reply)) compressed_filled).

Definition decompressed_filled : list byte :=
  blit (dest uncompress_reply) (decompressed (entry env)).

Definition decompressed_terminated : list byte :=
  <[N.to_nat (destLen uncompress_reply) := x00]> decompressed_filled.

(** The frame after each of the three steps, with trace [t]. *)
Definition after_compress (t : list event) : frame :=
  Frame compressed_filled (decompressed (entry env))
        (destLen compress_reply) 100 t.

Definition after_uncompress (t : list event) : frame :=
  Frame compressed_filled decompressed_filled
        (destLen compress_reply) (destLen uncompress_reply) t.

Definition after_terminator (t : list event) : frame :=
  Frame compressed_filled decompressed_terminated
        (destLen compress_reply) (destLen uncompress_reply) t.

End Run.

(** Every run of [main_c.main] is one of six. *)
Inductive main_c_runs (env : environment) : result Empty_set * frame → Prop :=
| compress_failed :
    ret (compress_reply env) ≠ Z_OK →
    main_c_runs env (Return 1, after_compress env
      [Compress (ret (compress_reply env));
       Stdout ("Fehler bei compress()" +:+ LF)])
| compressed_size_outside :
    ret (compress_reply env) = Z_OK →
    100 < destLen (compress_reply env) →
    main_c_runs env (Undefined, after_compress env [Compress Z_OK])
| uncompress_failed :
    ret (compress_reply env) = Z_OK →
    destLen (compress_reply env) ≤ 100 →
    ret (uncompress_reply env) ≠ Z_OK →
    main_c_runs env (Return 1, after_uncompress env
      [Compress Z_OK; Uncompress (ret (uncompress_reply env));
       Stdout ("Fehler bei uncompress()" +:+ LF)])
| terminator_outside :
    ret (compress_reply env) = Z_OK →
    destLen (compress_reply env) ≤ 100 →
    ret (uncompress_reply env) = Z_OK →
    100 ≤ destLen (uncompress_reply env) →
    main_c_runs env (Undefined, after_uncompress env [Compress Z_OK; Uncompress Z_OK])
| version_failed s :
    ret (compress_reply env) = Z_OK →
    destLen (compress_reply env) ≤ 100 →
    ret (uncompress_reply env) = Z_OK →
    destLen (uncompress_reply env) < 100 →
    c_str (decompressed_terminated env) = Some s →
    png_access_version_number env = 0 →
    main_c_runs env (Return 1, after_terminator env
      [Compress Z_OK; Uncompress Z_OK;
       Stdout ("Original:     " +:+ text +:+ LF);
       Stdout ("Dekomprimiert: " +:+ s +:+ LF);
       Stdout (LF +:+ "libpng compile-time version: "
                  +:+ PNG_LIBPNG_VER_STRING env +:+ LF);
       PngAccessVersionNumber 0;
       Stdout ("libpng runtime version (numeric): " +:+ lu 0 +:+ LF);
       Stderr ("Fehler: libpng Runtime-Version konnte nicht ermittelt werden!"
                 +:+ LF)])
| all_succeeded s :
    ret (compress_reply env) = Z_OK →
    destLen (compress_reply env) ≤ 100 →
    ret (uncompress_reply env) = Z_OK →
    destLen (uncompress_reply env) < 100 →
    c_str (decompressed_terminated env) = Some s →
    png_access_version_number env ≠ 0 →
    main_c_runs env (Return 0, after_terminator env
      [Compress Z_OK; Uncompress Z_OK;
       Stdout ("Original:     " +:+ text +:+ LF);
       Stdout ("Dekomprimiert: " +:+ s +:+ LF);
       Stdout (LF +:+ "libpng compile-time version: "
                  +:+ PNG_LIBPNG_VER_STRING env +:+ LF);
       PngAccessVersionNumber (png_access_version_number env);
       Stdout ("libpng runtime version (numeric): "
                 +:+ lu (png_access_version_number env) +:+ LF);
       Stdout ("zlib und libpng sind erfolgreich gelinkt und verwendbar."
                 +:+ LF)]).

(** Every run of [part_002.main] is one of five. *)
Inductive part_002_runs (env : environment) : result Empty_set * frame → Prop :=
| compress_failed' :
    ret (compress_reply env) ≠ Z_OK →
    part_002_runs env (Return 1, after_compress env
      [Compress (ret (compress_reply env));
       Stdout ("Fehler bei compress()" +:+ LF)])
| compressed_size_outside' :
    ret (compress_reply env) = Z_OK →
    100 < destLen (compress_reply env) →
    part_002_runs env (Undefined, after_compress env [Compress Z_OK])
| uncompress_failed' :
    ret (compress_reply env) = Z_OK →
    destLen (compress_reply env) ≤ 100 →
    ret (uncompress_reply env) ≠ Z_OK →
    part_002_runs env (Return 1, after_uncompress env
      [Compress Z_OK; Uncompress (ret (uncompress_reply env));
       Stdout ("Fehler bei uncompress()" +:+ LF)])
| terminator_outside' :
    ret (compress_reply env) = Z_OK →
    destLen (compress_reply env) ≤ 100 →
    ret (uncompress_reply env) = Z_OK →
    100 ≤ destLen (uncompress_reply env) →
    part_002_runs env (Undefined, after_uncompress env [Compress Z_OK; Uncompress Z_OK])
| printed_both' s :
    ret (compress_reply env) = Z_OK →
    destLen (compress_reply env) ≤ 100 →
    ret (uncompress_reply env) = Z_OK →
    destLen (uncompress_reply env) < 100 →
    c_str (decompressed_terminated env) = Some s →
    part_002_runs env (Return 0, after_terminator env
      [Compress Z_OK; Uncompress Z_OK;
       Stdout ("Original: " +:+ text +:+ LF);
       Stdout ("Dekomprimiert: " +:+ s +:+ LF)]).

(** ** More environments *)

(** [uncompress] hands back data with a zero byte in the middle. *)
Definition embedded_zero : environment :=
  Environment (zlib_of_codec
                 (Codec Stored.encode
                        (λ _, Some (String.list_byte_of_string "Good" ++ [x00]
                                      ++ String.list_byte_of_string "bye"))))
              "1.6.43" 10643 stale.

(** A library that breaks the contract: [compress] stores nothing and
    reports one byte, and [uncompress] accepts only a zero byte. *)
Definition overreporting : zlib.
Proof.
  refine (Zlib (λ _ _, Reply Z_OK [] 1)
               (λ _ src, if decide (src = [x00]) then Reply Z_OK [] 0
                         else Reply Z_DATA_ERROR [] 0)
               _ _); intros cap src; simpl; [lia|].
  case_decide; simpl; lia.
Defined.

(** The calls into the libraries among the events of a run. *)
Definition calls (t : list event) : list event :=
  omap (λ e, match e with Stdout _ | Stderr _ => None | _ => Some e end) t.

(** * Proofs *)

(** ** The steps of [main] on the frames they meet *)

Ltac proj := cbn [compressed decompressed compressedSize decompressedSize trace].

Lemma length_blit new old :
  (length new ≤ length old)%nat → length (blit new old) = length old.
Proof. intros. unfold blit. rewrite length_app, length_drop. lia. Qed.

Lemma length_compressed_filled env : length (compressed_filled env) = 100%nat.
Proof.
  unfold compressed_filled. rewrite length_blit; [reflexivity|].
  pose proof (compress_in_dest (libz env) 100 input) as H.
  change (length (compressed (entry env))) with 100%nat.
  unfold compress_reply. lia.
Qed.

Lemma length_decompressed_filled env : length (decompressed_filled env) = 100%nat.
Proof.
  unfold decompressed_filled. rewrite length_blit; [reflexivity|].
  pose proof (uncompress_in_dest (libz env) 100
    (take (N.to_nat (destLen (compress_reply env))) (compressed_filled env))) as H.
  change (length (decompressed (entry env))) with 100%nat.
  unfold uncompress_reply. lia.
Qed.

Lemma length_decompressed_terminated env :
  length (decompressed_terminated env) = 100%nat.
Proof.
  unfold decompressed_terminated.
  by rewrite length_insert, length_decompressed_filled.
Qed.

(** Once a zero byte is stored inside an array, [strlen] stops inside it. *)
Lemma strlen_insert_lt (p : list byte) i :
  (i < length p)%nat → ∃ n, strlen (<[i := x00]> p) = Some n ∧ (n ≤ i)%nat.
Proof.
  revert i. induction p as [|b p IH]; intros i Hi; simpl in *; [lia|].
  destruct i as [|i]; simpl.
  - exists 0%nat. done.
  - destruct (IH i) as (n & Hn & ?); [lia|].
    destruct (decide (b = x00)) as [->|Hb].
    + exists 0%nat. split; [done|lia].
    + exists (S n). split; [|lia].
      rewrite Hn. by destruct b.
Qed.

Lemma strlen_text : strlen (literal text) = Some 32%nat.
Proof. reflexivity. Qed.

Lemma c_str_text : c_str (literal text) = Some text.
Proof. reflexivity. Qed.

Lemma call_compress_entry env :
  call_compress env (entry env) =
    (Next (ret (compress_reply env)),
     after_compress env [Compress (ret (compress_reply env))]).
Proof. reflexivity. Qed.

Lemma call_uncompress_after_compress env t :
  call_uncompress env (after_compress env t) =
    if decide (destLen (compress_reply env) ≤ 100)
    then (Next (ret (uncompress_reply env)),
          after_uncompress env (t ++ [Uncompress (ret (uncompress_reply env))]))
    else (Undefined, after_compress env t).
Proof.
  unfold call_uncompress, call, after_compress. proj.
  unfold sizeof. rewrite length_compressed_filled.
  change (N.of_nat (length (decompressed (entry env)))) with 100.
  change (N.of_nat 100) with 100.
  case_decide as H; case_decide as H'; try reflexivity; lia.
Qed.

Lemma terminate_after_uncompress env t :
  terminate_decompressed (after_uncompress env t) =
    if decide (destLen (uncompress_reply env) < 100)
    then (Next (), after_terminator env t)
    else (Undefined, after_uncompress env t).
Proof.
  unfold terminate_decompressed, after_uncompress. proj.
  rewrite length_decompressed_filled.
  case_decide as H; case_decide as H'; try reflexivity; lia.
Qed.

Lemma c_str_decompressed_terminated env :
  destLen (uncompress_reply env) < 100 →
  is_Some (c_str (decompressed_terminated env)).
Proof.
  intros H. unfold c_str, decompressed_terminated.
  destruct (strlen_insert_lt (decompressed_filled env)
              (N.to_nat (destLen (uncompress_reply env)))) as (n & -> & _).
  - rewrite length_decompressed_filled. lia.
  - simpl. eauto.
Qed.

(** The part both versions share: up to the terminator. *)
Ltac run_round_trip env E1 E2 E3 E4 :=
  unfold bind at 1; rewrite call_compress_entry;
  destruct (decide (ret (compress_reply env) = Z_OK)) as [E1|E1];
  [ unfold bind at 1; unfold when at 1; rewrite bool_decide_false by tauto;
    unfold pure; unfold bind at 1; rewrite E1;
    rewrite call_uncompress_after_compress; cbn [app];
    case_decide as E2;
    [ destruct (decide (ret (uncompress_reply env) = Z_OK)) as [E3|E3];
      [ unfold bind at 1; unfold when at 1; rewrite bool_decide_false by tauto;
        unfold pure; unfold bind at 1; rewrite terminate_after_uncompress;
        rewrite E3; case_decide as E4
      | unfold bind, when; rewrite bool_decide_true by done; simpl ]
    | ]
  | unfold bind, when; rewrite bool_decide_true by done; simpl ].

Lemma main_c_main_runs env : main_c_runs env (run main_c.main env).
Proof.
  unfold run, main_c.main. run_round_trip env E1 E2 E3 E4.
  - destruct (c_str_decompressed_terminated env E4) as [s Hs].
    unfold bind, decompressed_str, printf, emit, call_png_access_version_number.
    simpl. rewrite Hs. simpl.
    destruct (decide (png_access_version_number env = 0)) as [E5|E5].
    + unfold when. rewrite bool_decide_true by done. simpl. rewrite E5.
      by constructor.
    + unfold when. rewrite bool_decide_false by done. simpl.
      by constructor.
  - constructor; [done..|lia].
  - by constructor.
  - constructor; [done|lia].
  - by constructor.
Qed.

Lemma part_002_main_runs env : part_002_runs env (run part_002.main env).
Proof.
  unfold run, part_002.main. run_round_trip env E1 E2 E3 E4.
  - destruct (c_str_decompressed_terminated env E4) as [s Hs].
    unfold bind, decompressed_str, printf, emit.
    simpl. rewrite Hs. simpl. by constructor.
  - constructor; [done..|lia].
  - by constructor.
  - constructor; [done|lia].
  - by constructor.
Qed.

(** ** The reference codec is a codec *)

Lemma to_N_byte_of_N n : Byte.to_N (Stored.byte_of_N n) = n mod 256.
Proof.
  unfold Stored.byte_of_N.
  destruct (Byte.of_N (n mod 256)) as [b|] eqn:E.
  - by apply Byte.to_of_N.
  - apply Byte.of_N_None_iff in E.
    pose proof (N.mod_upper_bound n 256). lia.
Qed.

Lemma le16_value n (b0 b1 : byte) :
  n ≤ 65535 → Stored.le16 n = [b0; b1] → Byte.to_N b0 + 256 * Byte.to_N b1 = n.
Proof.
  intros Hn [= <- <-]. rewrite !to_N_byte_of_N.
  rewrite (N.mod_small (n / 256)) by (apply N.Div0.div_lt_upper_bound; lia).
  rewrite (N.div_mod n 256) at 3 by done. lia.
Qed.

(** Reading the blocks back yields the input and leaves what followed them. *)
Lemma unblocks_blocks fuel fuel' s t :
  (length s < fuel)%nat → (length s < fuel')%nat →
  Stored.unblocks fuel' (Stored.blocks fuel s ++ t) = Some (s, t).
Proof.
  revert fuel' s. induction fuel as [|fuel IH]; intros fuel' s Hf Hf'; [lia|].
  destruct fuel' as [|fuel']; [lia|].
  cbn [Stored.blocks]. case_decide as Hn.
  - cbn [app Stored.le16 Stored.unblocks].
    rewrite (le16_value (N.of_nat (length s)) _ _ Hn eq_refl).
    rewrite (le16_value (65535 - N.of_nat (length s)) _ _ ltac:(lia) eq_refl).
    rewrite decide_True by (rewrite length_app; lia).
    rewrite Nat2N.id, take_app_length, drop_app_length. done.
  - cbn [app Stored.le16 Stored.unblocks].
    rewrite (le16_value 65535 _ _ ltac:(lia) eq_refl).
    rewrite (le16_value 0 _ _ ltac:(lia) eq_refl).
    assert (length (take (N.to_nat 65535) s) = N.to_nat 65535) as Hlen
      by (rewrite length_take; lia).
    rewrite decide_True by (rewrite <- app_assoc, length_app, Hlen; lia).
    rewrite <- app_assoc.
    rewrite take_app_length', drop_app_length' by done.
    rewrite IH by (rewrite length_drop; lia).
    simpl. by rewrite take_drop.
Qed.

Lemma length_blocks fuel s :
  (length s < fuel)%nat → (length s < length (Stored.blocks fuel s))%nat.
Proof.
  revert s. induction fuel as [|fuel IH]; intros s Hf; [lia|].
  cbn [Stored.blocks]. case_decide as Hn.
  - cbn [app Stored.le16 length]. lia.
  - cbn [app Stored.le16 length]. rewrite length_app, length_take.
    specialize (IH (drop (N.to_nat 65535) s)).
    rewrite length_drop in IH. lia.
Qed.

Lemma decode_encode s : Stored.decode (Stored.encode s) = Some s.
Proof.
  unfold Stored.encode. cbn [app Stored.decode].
  rewrite decide_True by done.
  rewrite unblocks_blocks; [|lia|].
  - simpl. by rewrite decide_True.
  - rewrite length_app. pose proof (length_blocks (S (length s)) s). lia.
Qed.

(** The reference codec on the demo text: the 43 bytes a zlib emits at
    compression level 0, and back. *)
Example adler32_text : Stored.adler32 input = 3212970867.
Proof. reflexivity. Qed.

Example encode_text :
  Stored.encode input
  = [x78; x01; x01; x20; x00; xdf; xff] ++ input ++ [xbf; x82; x0b; x73].
Proof. reflexivity. Qed.

Example decode_text :
  Stored.decode ([x78; x01; x01; x20; x00; xdf; xff] ++ input ++ [xbf; x82; x0b; x73])
  = Some input.
Proof. reflexivity. Qed.

(** A flipped bit in the payload is caught by the checksum. *)
Example decode_corrupt :
  Stored.decode ([x78; x01; x01; x20; x00; xdf; xff]
                   ++ <[0%nat := x49]> input ++ [xbf; x82; x0b; x73])
  = None.
Proof. reflexivity. Qed.

(** A codec whose decoder inverts its encoder gives a library that keeps the
    contract. *)
Lemma codec_contract c :
  (∀ s, inflate c (deflate c s) = Some s) → zlib_contract (zlib_of_codec c).
Proof.
  intros Hinv. split; simpl.
  - intros cap src. unfold codec_compress. case_decide; simpl; [done|]. discriminate.
  - intros cap src. unfold codec_uncompress.
    destruct (inflate c src); simpl; [|discriminate].
    case_decide; simpl; [done|]. discriminate.
  - intros cap cap' src. unfold codec_compress. case_decide; simpl; [|discriminate].
    intros _. unfold codec_uncompress. rewrite Hinv.
    case_decide; simpl; [done|]. discriminate.
Qed.

Lemma stored_contract : zlib_contract (zlib_of_codec Stored.stored).
Proof. apply codec_contract, decode_encode. Qed.

(** The run against the reference library, as it appears on the terminal. *)
Example reference_run :
  status main_c.main reference = Some 0%Z
  ∧ events main_c.main reference
    = [Compress Z_OK; Uncompress Z_OK;
       Stdout ("Original:     Hello from zlib via conda forge!" +:+ LF);
       Stdout ("Dekomprimiert: Hello from zlib via conda forge!" +:+ LF);
       Stdout (LF +:+ "libpng compile-time version: 1.6.43" +:+ LF);
       PngAccessVersionNumber 10643;
       Stdout ("libpng runtime version (numeric): 10643" +:+ LF);
       Stdout ("zlib und libpng sind erfolgreich gelinkt und verwendbar." +:+ LF)]
  ∧ compressedSize (final main_c.main reference) = 43
  ∧ decompressedSize (final main_c.main reference) = 32.
Proof. by vm_compute. Qed.

Example part_002_reference_run :
  status part_002.main reference = Some 0%Z
  ∧ events part_002.main reference
    = [Compress Z_OK; Uncompress Z_OK;
       Stdout ("Original: Hello from zlib via conda forge!" +:+ LF);
       Stdout ("Dekomprimiert: Hello from zlib via conda forge!" +:+ LF)].
Proof. by vm_compute. Qed.

(** ** What the contract gives the program *)

Section Contract.
Context (env : environment) (contract : zlib_contract (libz env)).

(** After a successful [compress] the recorded length is the number of bytes
    stored, and those bytes are what [uncompress] is handed. *)
Lemma compressed_prefix :
  ret (compress_reply env) = Z_OK →
  destLen (compress_reply env) ≤ 100
  ∧ take (N.to_nat (destLen (compress_reply env))) (compressed_filled env)
    = dest (compress_reply env).
Proof.
  intros E1. unfold compress_reply in *.
  rewrite (compress_destLen _ contract _ _ E1).
  split; [apply compress_in_dest|].
  unfold compressed_filled, blit, compress_reply.
  by rewrite Nat2N.id, take_app_length.
Qed.

Lemma uncompress_reply_input :
  ret (compress_reply env) = Z_OK → ret (uncompress_reply env) = Z_OK →
  dest (uncompress_reply env) = input ∧ destLen (uncompress_reply env) = 32.
Proof.
  intros E1 E3. unfold uncompress_reply in *.
  destruct (compressed_prefix E1) as [_ Hpre]. rewrite Hpre in *.
  rewrite (uncompress_destLen _ contract _ _ E3).
  unfold compress_reply in *.
  by rewrite (uncompress_compress _ contract _ _ _ E1 E3).
Qed.

Lemma decompressed_terminated_input :
  ret (compress_reply env) = Z_OK → ret (uncompress_reply env) = Z_OK →
  decompressed_terminated env
  = input ++ x00 :: drop 33 (decompressed (entry env)).
Proof.
  intros E1 E3. destruct (uncompress_reply_input E1 E3) as [Hd Hl].
  unfold decompressed_terminated, decompressed_filled. rewrite Hd, Hl.
  reflexivity.
Qed.

End Contract.

(** ** Tactics for the case analysis *)

(** Membership in a trace that is written out. *)
Ltac members :=
  repeat match goal with
  | H : _ ∈ [] |- _ => by apply elem_of_nil in H
  | H : _ ∈ _ :: _ |- _ => apply elem_of_cons in H as [H|H]
  end.

Ltac listed :=
  repeat first [apply list_elem_of_here | apply list_elem_of_further].

Ltac found := vm_compute; listed.

Ltac frames :=
  cbn [fst snd exit_status trace after_compress after_uncompress after_terminator
       compressed decompressed compressedSize decompressedSize].

Ltac main_c_paths env :=
  unfold status, events, final; destruct (main_c_main_runs env); frames.

Ltac part_002_paths env :=
  unfold status, events, final; destruct (part_002_main_runs env); frames.

(** Under the contract the decompressed length is that of the text, which
    closes the two paths that leave an array. *)
Ltac by_contract env contract :=
  repeat match goal with
  | E1 : ret (compress_reply env) = Z_OK,
    E3 : ret (uncompress_reply env) = Z_OK |- _ =>
      lazymatch goal with
      | _ : dest (uncompress_reply env) = input |- _ => fail
      | _ => destruct (uncompress_reply_input env contract E1 E3) as [? ?]
      end
  | E1 : ret (compress_reply env) = Z_OK |- _ =>
      lazymatch goal with
      | _ : take _ (compressed_filled env) = _ |- _ => fail
      | _ => destruct (compressed_prefix env contract E1) as [? ?]
      end
  end.

(** ** Facts about every run *)

(** With a library that keeps the contract, [main] always returns, and it
    returns 0 or 1. *)
Lemma exit_status_defined env :
  zlib_contract (libz env) →
  status main_c.main env = Some 0%Z ∨ status main_c.main env = Some 1%Z.
Proof.
  intros contract. main_c_paths env; by_contract env contract;
    first [lia | by eauto].
Qed.

(** With a library that keeps the contract, a successful round trip reaches
    the version query. *)
Lemma version_query_reached env :
  zlib_contract (libz env) →
  Compress Z_OK ∈ events main_c.main env →
  Uncompress Z_OK ∈ events main_c.main env →
  PngAccessVersionNumber (png_access_version_number env) ∈ events main_c.main env.
Proof.
  intros contract. main_c_paths env; intros Hc Hu; members; simplify_eq;
    try done; by_contract env contract; try lia.
  - match goal with H : png_access_version_number env = 0 |- _ => rewrite H end.
    listed.
  - listed.
Qed.

(** With any library that keeps the contract, a successful compression
    leaves a length inside the array. *)
Lemma compressedSize_in_capacity env :
  zlib_contract (libz env) →
  Compress Z_OK ∈ events main_c.main env →
  compressedSize (final main_c.main env) ≤ 100.
Proof.
  intros contract. main_c_paths env; intros Hc; members; simplify_eq;
    by_contract env contract; done.
Qed.

(** The terminator is stored at [decompressed[decompressedSize]] whenever
    that is inside the array. *)
Lemma terminator_stored main env :
  main = main_c.main ∨ main = part_002.main →
  Uncompress Z_OK ∈ events main env →
  decompressedSize (final main env) < 100 →
  length (decompressed (final main env)) = 100%nat
  ∧ decompressed (final main env) !! N.to_nat (decompressedSize (final main env))
    = Some x00
  ∧ (run main env).1 ≠ Undefined.
Proof.
  intros [-> | ->]; [main_c_paths env | part_002_paths env];
    intros Hu Hlt; members; simplify_eq; try done; try lia.
  all: split_and!; [apply length_decompressed_terminated| |done].
  all: unfold decompressed_terminated; apply list_lookup_insert_eq;
    rewrite length_decompressed_filled; lia.
Qed.

(** Nothing stands between the decompression and the store: when the
    reported length is not inside the array, the store leaves it. *)
Lemma terminator_unguarded main env :
  main = main_c.main ∨ main = part_002.main →
  Uncompress Z_OK ∈ events main env →
  100 ≤ decompressedSize (final main env) →
  (run main env).1 = Undefined.
Proof.
  intros [-> | ->]; [main_c_paths env | part_002_paths env];
    intros Hu Hge; members; simplify_eq; try done; lia.
Qed.

(** * The claims *)

(** C1.  For the fixed demo text, when the compression call and the
    decompression call both succeed, the decompressed buffer up to its
    recorded length holds the text byte for byte, and the recorded length is
    the length of the text.  This holds in both versions of the program, for
    every library that keeps the contract of [compress] and [uncompress]. *)
Theorem C1_round_trip main env :
  main = main_c.main ∨ main = part_002.main →
  zlib_contract (libz env) →
  Compress Z_OK ∈ events main env → Uncompress Z_OK ∈ events main env →
  take (N.to_nat (decompressedSize (final main env))) (decompressed (final main env))
    = input
  ∧ decompressedSize (final main env) = N.of_nat (length input).
Proof.
  intros [-> | ->] contract; [main_c_paths env | part_002_paths env];
    intros Hc Hu; members; simplify_eq; try done; by_contract env contract;
    try lia.
  all: rewrite decompressed_terminated_input by done.
  all: match goal with H : destLen _ = 32 |- _ => rewrite H end.
  all: done.
Qed.

Lemma C1_round_trip_witness :
  (zlib_contract (libz reference)
   ∧ Compress Z_OK ∈ events main_c.main reference
   ∧ Uncompress Z_OK ∈ events main_c.main reference)
  ∧ (take (N.to_nat (decompressedSize (final main_c.main reference)))
          (decompressed (final main_c.main reference))
       = String.list_byte_of_string "Hello from zlib via conda forge!"
     ∧ decompressedSize (final main_c.main reference) = 32)
  ∧ (take (N.to_nat (decompressedSize (final part_002.main reference)))
          (decompressed (final part_002.main reference))
       = String.list_byte_of_string "Hello from zlib via conda forge!"
     ∧ decompressedSize (final part_002.main reference) = 32).
Proof.
  split_and!; [exact stored_contract|found|found|..].
  - apply (C1_round_trip main_c.main reference);
      [by left|exact stored_contract|found..].
  - apply (C1_round_trip main_c.main reference);
      [by left|exact stored_contract|found..].
  - apply (C1_round_trip part_002.main reference);
      [by right|exact stored_contract|found..].
  - apply (C1_round_trip part_002.main reference);
      [by right|exact stored_contract|found..].
Defined.

(** C2.  The exit status of [main] is 0 exactly when the compression call,
    the decompression call and the version query all succeeded, and it is 1
    exactly when one of them failed. *)
Theorem C2_exit_status env :
  (status main_c.main env = Some 0%Z ↔
     Compress Z_OK ∈ events main_c.main env
     ∧ Uncompress Z_OK ∈ events main_c.main env
     ∧ ∃ v, v ≠ 0 ∧ PngAccessVersionNumber v ∈ events main_c.main env)
  ∧ (status main_c.main env = Some 1%Z ↔
     (∃ s, s ≠ Z_OK ∧ Compress s ∈ events main_c.main env)
     ∨ (∃ s, s ≠ Z_OK ∧ Uncompress s ∈ events main_c.main env)
     ∨ PngAccessVersionNumber 0 ∈ events main_c.main env).
Proof.
  main_c_paths env; (split; split).
  all: try discriminate.
  all: try (intros (Hc & Hu & v & Hv & Hp); members; by simplify_eq).
  all: try (intros [(s' & Hs & Hin) | [(s' & Hs & Hin) | Hin]]; members;
            by simplify_eq).
  all: intros _.
  - left. eexists. split; [|listed]. done.
  - right; left. eexists. split; [|listed]. done.
  - right; right. listed.
  - split_and!; [listed..|]. eexists. split; [|listed]. done.
Qed.

Lemma C2_exit_status_witness :
  status main_c.main reference = Some 0%Z
  ∧ status main_c.main compress_fails = Some 1%Z
  ∧ status main_c.main uncompress_fails = Some 1%Z
  ∧ status main_c.main no_version = Some 1%Z.
Proof.
  split_and!.
  - apply (C2_exit_status reference). split_and!; [found..|].
    exists 10643. split; [done|found].
  - apply (C2_exit_status compress_fails). left.
    exists Z_MEM_ERROR. split; [done|found].
  - apply (C2_exit_status uncompress_fails). right; left.
    exists Z_DATA_ERROR. split; [done|found].
  - apply (C2_exit_status no_version). right; right. found.
Defined.

(** C3.  In every run in which [compress] returns a status other than
    [Z_OK], the program exits with status 1 and [uncompress] is never
    called: the run is the call and the line that reports it. *)
Theorem C3_compress_failure env s :
  Compress s ∈ events main_c.main env → s ≠ Z_OK →
  status main_c.main env = Some 1%Z
  ∧ (∀ s', Uncompress s' ∉ events main_c.main env)
  ∧ events main_c.main env = [Compress s; Stdout ("Fehler bei compress()" +:+ LF)].
Proof.
  main_c_paths env; intros Hin Hs; members; simplify_eq; try done.
  split_and!; [done| |done]. intros s' Hin. by members.
Qed.

Lemma C3_compress_failure_witness :
  (Compress Z_MEM_ERROR ∈ events main_c.main compress_fails
   ∧ Z_MEM_ERROR ≠ Z_OK)
  ∧ status main_c.main compress_fails = Some 1%Z
  ∧ (∀ s', Uncompress s' ∉ events main_c.main compress_fails)
  ∧ events main_c.main compress_fails
    = [Compress Z_MEM_ERROR; Stdout ("Fehler bei compress()" +:+ LF)].
Proof.
  split; [split; [found|done]|].
  apply (C3_compress_failure compress_fails Z_MEM_ERROR); [found|done].
Defined.

(** C4.  In every run in which compression succeeds and [uncompress]
    returns a status other than [Z_OK], the program exits with status 1
    without reaching the version report: [png_access_version_number] is not
    called, and standard output holds the failure line and nothing else. *)
Theorem C4_uncompress_failure env s :
  Compress Z_OK ∈ events main_c.main env →
  Uncompress s ∈ events main_c.main env → s ≠ Z_OK →
  status main_c.main env = Some 1%Z
  ∧ (∀ v, PngAccessVersionNumber v ∉ events main_c.main env)
  ∧ stdout (events main_c.main env) = ["Fehler bei uncompress()" +:+ LF]
  ∧ stderr (events main_c.main env) = [].
Proof.
  main_c_paths env; intros Hc Hu Hs; members; simplify_eq; try done.
  split_and!; [done| |done..]. intros v Hin. by members.
Qed.

Lemma C4_uncompress_failure_witness :
  (Compress Z_OK ∈ events main_c.main uncompress_fails
   ∧ Uncompress Z_DATA_ERROR ∈ events main_c.main uncompress_fails
   ∧ Z_DATA_ERROR ≠ Z_OK)
  ∧ status main_c.main uncompress_fails = Some 1%Z
  ∧ (∀ v, PngAccessVersionNumber v ∉ events main_c.main uncompress_fails)
  ∧ stdout (events main_c.main uncompress_fails) = ["Fehler bei uncompress()" +:+ LF]
  ∧ stderr (events main_c.main uncompress_fails) = [].
Proof.
  split; [split_and!; [found..|done]|].
  apply (C4_uncompress_failure uncompress_fails Z_DATA_ERROR); [found..|done].
Defined.

(** C5.  In every run in which compression and decompression succeed and
    the version query returns 0, the program writes its diagnostic line to
    standard error and exits with status 1. *)
Theorem C5_version_query_failure env :
  Compress Z_OK ∈ events main_c.main env →
  Uncompress Z_OK ∈ events main_c.main env →
  PngAccessVersionNumber 0 ∈ events main_c.main env →
  stderr (events main_c.main env)
    = ["Fehler: libpng Runtime-Version konnte nicht ermittelt werden!" +:+ LF]
  ∧ status main_c.main env = Some 1%Z.
Proof.
  main_c_paths env; intros Hc Hu Hv; members; simplify_eq; done.
Qed.

Lemma C5_version_query_failure_witness :
  (png_access_version_number no_version = 0
   ∧ Compress Z_OK ∈ events main_c.main no_version
   ∧ Uncompress Z_OK ∈ events main_c.main no_version
   ∧ PngAccessVersionNumber 0 ∈ events main_c.main no_version)
  ∧ stderr (events main_c.main no_version)
    = ["Fehler: libpng Runtime-Version konnte nicht ermittelt werden!" +:+ LF]
  ∧ status main_c.main no_version = Some 1%Z.
Proof.
  split; [split_and!; [done|found..]|].
  apply (C5_version_query_failure no_version); found.
Defined.

(** C6.  After every successful decompression the terminator is stored at
    index [decompressedSize] of the 100-byte array [decompressed], and the
    store is inside the array: with a library that keeps the contract,
    [decompressedSize < 100] whenever [uncompress] succeeds.  No check guards
    the store: with any library at all, a reported length of 100 or more
    makes the program store outside the array.  Both versions of the
    program. *)
Theorem C6_terminator_write main env :
  main = main_c.main ∨ main = part_002.main →
  zlib_contract (libz env) →
  Uncompress Z_OK ∈ events main env →
  (decompressedSize (final main env) < 100
   ∧ length (decompressed (final main env)) = 100%nat
   ∧ decompressed (final main env) !! N.to_nat (decompressedSize (final main env))
     = Some x00
   ∧ (run main env).1 ≠ Undefined)
  ∧ (∀ env',
       Uncompress Z_OK ∈ events main env' →
       100 ≤ decompressedSize (final main env') →
       (run main env').1 = Undefined).
Proof.
  intros Hmain contract Hu.
  assert (decompressedSize (final main env) < 100) as Hlt.
  { revert Hu. destruct Hmain as [-> | ->];
      [main_c_paths env | part_002_paths env];
      intros Hu; members; simplify_eq; try done;
      by_contract env contract; lia. }
  split.
  - split; [exact Hlt|]. by apply terminator_stored.
  - intros env'. by apply terminator_unguarded.
Qed.

Lemma C6_terminator_write_witness :
  (zlib_contract (libz reference)
   ∧ Uncompress Z_OK ∈ events main_c.main reference
   ∧ Uncompress Z_OK ∈ events part_002.main reference)
  ∧ (decompressedSize (final main_c.main reference) = 32
     ∧ decompressed (final main_c.main reference) !! 32%nat = Some x00)
  ∧ (decompressedSize (final part_002.main reference) = 32
     ∧ decompressed (final part_002.main reference) !! 32%nat = Some x00)
  ∧ (decompressedSize (final main_c.main full_array) = 100
     ∧ (run main_c.main full_array).1 = Undefined).
Proof.
  destruct (C6_terminator_write main_c.main reference)
    as ((_ & _ & Hw & _) & Hfree); [by left|exact stored_contract|found|].
  destruct (C6_terminator_write part_002.main reference)
    as ((_ & _ & Hw' & _) & _); [by right|exact stored_contract|found|].
  split_and!; [exact stored_contract|found|found|done|exact Hw|done|exact Hw'|done|].
  apply (Hfree full_array); [found|by vm_compute].
Defined.

(** C7.  The program never compares the decompressed bytes with the text.
    On the path where both calls succeed it prints the text and whatever the
    array holds, and its exit status is decided by the version query alone;
    there is a run that exits with status 0 although the decompressed bytes
    are not the text. *)
Theorem C7_no_equality_check :
  (∀ env,
     Uncompress Z_OK ∈ events main_c.main env →
     decompressedSize (final main_c.main env) < 100 →
     ∃ s, c_str (decompressed (final main_c.main env)) = Some s
       ∧ stdout (events main_c.main env)
         = ["Original:     " +:+ text +:+ LF;
            "Dekomprimiert: " +:+ s +:+ LF;
            LF +:+ "libpng compile-time version: "
               +:+ PNG_LIBPNG_VER_STRING env +:+ LF;
            "libpng runtime version (numeric): "
               +:+ lu (png_access_version_number env) +:+ LF]
           ++ (if decide (png_access_version_number env = 0) then []
               else ["zlib und libpng sind erfolgreich gelinkt und verwendbar."
                       +:+ LF])
       ∧ status main_c.main env
         = Some (if decide (png_access_version_number env = 0) then 1%Z else 0%Z))
  ∧ (∃ env,
       status main_c.main env = Some 0%Z
       ∧ take (N.to_nat (decompressedSize (final main_c.main env)))
              (decompressed (final main_c.main env))
         ≠ input).
Proof.
  split.
  - intros env. main_c_paths env; intros Hu Hlt; members; simplify_eq; try lia.
    + exists s. rewrite !decide_True by done.
      match goal with H : png_access_version_number env = 0 |- _ => rewrite H end.
      done.
    + exists s. by rewrite !decide_False by done.
  - exists other_text. by vm_compute.
Qed.

Lemma C7_no_equality_check_witness :
  (Uncompress Z_OK ∈ events main_c.main other_text
   ∧ decompressedSize (final main_c.main other_text) < 100)
  ∧ ∃ s, c_str (decompressed (final main_c.main other_text)) = Some s
       ∧ s ≠ text
       ∧ status main_c.main other_text = Some 0%Z.
Proof.
  split; [split; [found|by vm_compute]|].
  destruct (proj1 C7_no_equality_check other_text) as (s & Hs & _ & Hstatus);
    [found|by vm_compute|].
  exists s. split_and!; [exact Hs| |exact Hstatus].
  vm_compute in Hs. intros ->. discriminate Hs.
Defined.

(** C8.  After a successful compression call the recorded compressed length
    is at most the capacity of 100 bytes, and an output that would exceed the
    capacity makes [compress] report failure instead of writing past the
    array: the array keeps its 100 bytes and the program exits with status 1.
    For the compression primitive as the spec describes it, around any
    encoder. *)
Theorem C8_compressed_size_bounded (c : codec) (ver : string) (v : N) (old : nat → byte) :
  let env := Environment (zlib_of_codec c) ver v old in
  length (compressed (final main_c.main env)) = 100%nat
  ∧ (Compress Z_OK ∈ events main_c.main env →
     compressedSize (final main_c.main env) = N.of_nat (length (deflate c input))
     ∧ compressedSize (final main_c.main env) ≤ 100)
  ∧ (100 < N.of_nat (length (deflate c input)) →
     events main_c.main env
       = [Compress Z_BUF_ERROR; Stdout ("Fehler bei compress()" +:+ LF)]
     ∧ status main_c.main env = Some 1%Z).
Proof.
  intros env.
  assert (ret (compress_reply env) = Z_OK →
          destLen (compress_reply env) = N.of_nat (length (deflate c input))
          ∧ destLen (compress_reply env) ≤ 100) as Hok.
  { unfold compress_reply, env. simpl. unfold codec_compress.
    case_decide; simpl; [done|discriminate]. }
  assert (100 < N.of_nat (length (deflate c input)) →
          ret (compress_reply env) = Z_BUF_ERROR) as Hbig.
  { unfold compress_reply, env. simpl. unfold codec_compress.
    case_decide; simpl; [lia|done]. }
  main_c_paths env.
  all: split_and!; [apply length_compressed_filled| |].
  all: try (intros Hc; members; simplify_eq; by auto).
  all: intros Hb; specialize (Hbig Hb).
  all: try match goal with
       | H : ret (compress_reply _) = Z_OK |- _ => by rewrite H in Hbig
       end.
  by rewrite Hbig.
Qed.

Lemma C8_compressed_size_bounded_witness :
  (Compress Z_OK ∈ events main_c.main reference
   ∧ 100 < N.of_nat (length (Stored.encode (input ++ replicate 100 x00))))
  ∧ compressedSize (final main_c.main reference) = 43
  ∧ compressedSize (final main_c.main reference) ≤ 100
  ∧ events main_c.main bulky
    = [Compress Z_BUF_ERROR; Stdout ("Fehler bei compress()" +:+ LF)]
  ∧ length (compressed (final main_c.main bulky)) = 100%nat.
Proof.
  destruct (C8_compressed_size_bounded Stored.stored "1.6.43" 10643 stale)
    as (_ & Hok & _).
  destruct (C8_compressed_size_bounded
              (Codec (λ s, Stored.encode (s ++ replicate 100 x00)) Stored.decode)
              "1.6.43" 10643 stale) as (Hlen & _ & Hbig).
  destruct Hok as [Hsize Hle]; [found|].
  destruct Hbig as [Hev _]; [by vm_compute|].
  split_and!; [found|by vm_compute|exact Hsize|exact Hle|exact Hev|exact Hlen].
Defined.

(** C9.  On a run in which everything succeeds, the program exits with
    status 0 and standard output holds, in this order, the original text, the
    decompressed text, which is the same text, the compile-time version
    string, the runtime version in decimal, and the line that confirms
    success; nothing goes to standard error. *)
Theorem C9_successful_run env :
  zlib_contract (libz env) →
  Compress Z_OK ∈ events main_c.main env →
  Uncompress Z_OK ∈ events main_c.main env →
  png_access_version_number env ≠ 0 →
  status main_c.main env = Some 0%Z
  ∧ stdout (events main_c.main env)
    = ["Original:     " +:+ text +:+ LF;
       "Dekomprimiert: " +:+ text +:+ LF;
       LF +:+ "libpng compile-time version: " +:+ PNG_LIBPNG_VER_STRING env +:+ LF;
       "libpng runtime version (numeric): "
          +:+ lu (png_access_version_number env) +:+ LF;
       "zlib und libpng sind erfolgreich gelinkt und verwendbar." +:+ LF]
  ∧ stderr (events main_c.main env) = [].
Proof.
  intros contract. main_c_paths env; intros Hc Hu Hv; members; simplify_eq;
    try done; by_contract env contract; try lia.
  match goal with
  | H : c_str (decompressed_terminated env) = Some _ |- _ =>
      rewrite decompressed_terminated_input in H by done;
      change (Some text = Some s) in H; injection H as <-
  end.
  done.
Qed.

Lemma C9_successful_run_witness :
  (zlib_contract (libz reference)
   ∧ Compress Z_OK ∈ events main_c.main reference
   ∧ Uncompress Z_OK ∈ events main_c.main reference
   ∧ png_access_version_number reference ≠ 0)
  ∧ status main_c.main reference = Some 0%Z
  ∧ stdout (events main_c.main reference)
    = ["Original:     Hello from zlib via conda forge!" +:+ LF;
       "Dekomprimiert: Hello from zlib via conda forge!" +:+ LF;
       LF +:+ "libpng compile-time version: 1.6.43" +:+ LF;
       "libpng runtime version (numeric): 10643" +:+ LF;
       "zlib und libpng sind erfolgreich gelinkt und verwendbar." +:+ LF]
  ∧ stderr (events main_c.main reference) = [].
Proof.
  split; [split_and!; [exact stored_contract|found..|done]|].
  apply (C9_successful_run reference); [exact stored_contract|found..|done].
Defined.

(** C10.  The runtime version is printed before it is tested: on a failed
    version query the trace ends with the query, the line that shows the
    number 0 on standard output, and the diagnostic on standard error.  The
    diagnostics of a failed compression or decompression go to standard
    output and leave standard error empty, so standard error holds at most
    one line, and only after a failed version query. *)
Theorem C10_diagnostic_streams env :
  (PngAccessVersionNumber 0 ∈ events main_c.main env →
     ∃ before,
       events main_c.main env
         = before ++ [PngAccessVersionNumber 0;
                      Stdout ("libpng runtime version (numeric): 0" +:+ LF);
                      Stderr ("Fehler: libpng Runtime-Version konnte nicht ermittelt werden!"
                                +:+ LF)]
       ∧ stderr before = [])
  ∧ (∀ s, s ≠ Z_OK → Compress s ∈ events main_c.main env →
       stdout (events main_c.main env) = ["Fehler bei compress()" +:+ LF]
       ∧ stderr (events main_c.main env) = [])
  ∧ (∀ s, s ≠ Z_OK → Uncompress s ∈ events main_c.main env →
       stdout (events main_c.main env) = ["Fehler bei uncompress()" +:+ LF]
       ∧ stderr (events main_c.main env) = [])
  ∧ (stderr (events main_c.main env) = []
     ∨ stderr (events main_c.main env)
         = ["Fehler: libpng Runtime-Version konnte nicht ermittelt werden!" +:+ LF]
       ∧ PngAccessVersionNumber 0 ∈ events main_c.main env).
Proof.
  main_c_paths env; split_and!.
  all: try (intros Hv; members; by simplify_eq).
  all: try (intros s' Hs Hin; members; by simplify_eq).
  all: try (by left).
  - intros _. eexists [_; _; _; _; _]. split; reflexivity.
  - right. split; [done|listed].
Qed.

Lemma C10_diagnostic_streams_witness :
  (PngAccessVersionNumber 0 ∈ events main_c.main no_version
   ∧ Compress Z_MEM_ERROR ∈ events main_c.main compress_fails
   ∧ Uncompress Z_DATA_ERROR ∈ events main_c.main uncompress_fails)
  ∧ stdout (events main_c.main no_version)
    = ["Original:     Hello from zlib via conda forge!" +:+ LF;
       "Dekomprimiert: Hello from zlib via conda forge!" +:+ LF;
       LF +:+ "libpng compile-time version: 1.6.43" +:+ LF;
       "libpng runtime version (numeric): 0" +:+ LF]
  ∧ stderr (events main_c.main no_version)
    = ["Fehler: libpng Runtime-Version konnte nicht ermittelt werden!" +:+ LF]
  ∧ stdout (events main_c.main compress_fails) = ["Fehler bei compress()" +:+ LF]
  ∧ stderr (events main_c.main compress_fails) = []
  ∧ stdout (events main_c.main uncompress_fails) = ["Fehler bei uncompress()" +:+ LF]
  ∧ stderr (events main_c.main uncompress_fails) = [].
Proof.
  destruct (C10_diagnostic_streams no_version) as (Hv & _ & _ & _).
  destruct (C10_diagnostic_streams compress_fails) as (_ & Hc & _ & _).
  destruct (C10_diagnostic_streams uncompress_fails) as (_ & _ & Hu & _).
  destruct Hv as (before & _ & Hquiet); [found|].
  destruct (Hc Z_MEM_ERROR) as [Hc1 Hc2]; [done|found|].
  destruct (Hu Z_DATA_ERROR) as [Hu1 Hu2]; [done|found|].
  split_and!; [found|found|found|by vm_compute..|exact Hc1|exact Hc2|exact Hu1|exact Hu2].
Defined.

(** * Further properties of the two programs *)

(** ** The earlier version *)

(** X1.  The earlier version exits with status 0 exactly when both calls
    succeeded and the decompressed length is inside the array, and with
    status 1 exactly when one of the two calls failed. *)
Theorem X1_part_002_exit_status env :
  (status part_002.main env = Some 0%Z ↔
     Compress Z_OK ∈ events part_002.main env
     ∧ Uncompress Z_OK ∈ events part_002.main env
     ∧ decompressedSize (final part_002.main env) < 100)
  ∧ (status part_002.main env = Some 1%Z ↔
     (∃ s, s ≠ Z_OK ∧ Compress s ∈ events part_002.main env)
     ∨ (∃ s, s ≠ Z_OK ∧ Uncompress s ∈ events part_002.main env)).
Proof.
  part_002_paths env; (split; split).
  all: try discriminate.
  all: try (intros (Hc & Hu & Hlt); members; simplify_eq; done || lia).
  all: try (intros [(s' & Hs & Hin) | (s' & Hs & Hin)]; members;
            by simplify_eq).
  all: intros _.
  - left. eexists. split; [|listed]. done.
  - right. eexists. split; [|listed]. done.
  - split_and!; [listed..|done].
Qed.

(** X2.  The earlier version never writes to standard error and never asks
    libpng for its version.  When it exits with status 1, standard output
    holds one line, the report of the call that failed; when it exits with
    status 0, it holds the original text and the string found in the
    decompressed array. *)
Theorem X2_part_002_output env :
  stderr (events part_002.main env) = []
  ∧ (∀ v, PngAccessVersionNumber v ∉ events part_002.main env)
  ∧ (status part_002.main env = Some 1%Z →
     stdout (events part_002.main env) = ["Fehler bei compress()" +:+ LF]
     ∧ (∀ s, Uncompress s ∉ events part_002.main env)
     ∨ stdout (events part_002.main env) = ["Fehler bei uncompress()" +:+ LF]
       ∧ Compress Z_OK ∈ events part_002.main env)
  ∧ (status part_002.main env = Some 0%Z →
     ∃ s, c_str (decompressed (final part_002.main env)) = Some s
       ∧ stdout (events part_002.main env)
         = ["Original: " +:+ text +:+ LF; "Dekomprimiert: " +:+ s +:+ LF]).
Proof.
  part_002_paths env; split_and!; try done.
  all: try (intros v Hin; by members).
  all: try by eauto.
  - intros _. left. split; [done|]. intros s Hin. by members.
  - intros _. right. split; [done|listed].
Qed.

(** ** The two versions side by side *)

(** X3.  The later version is the earlier one with the version report
    added.  Run in the same environment, the two leave the same arrays and
    lengths and make the same calls into zlib.  A run of the earlier version
    that exits with status 1 is, event for event, the run of the later one;
    one that exits with status 0 is continued by the version report, which
    alone decides the exit status; one that leaves an array does so in both. *)
Theorem X3_versions_agree env :
  (compressed (final main_c.main env) = compressed (final part_002.main env)
   ∧ decompressed (final main_c.main env) = decompressed (final part_002.main env)
   ∧ compressedSize (final main_c.main env) = compressedSize (final part_002.main env)
   ∧ decompressedSize (final main_c.main env)
     = decompressedSize (final part_002.main env))
  ∧ (calls (events part_002.main env) `prefix_of` calls (events main_c.main env))
  ∧ (status part_002.main env = Some 1%Z →
     events main_c.main env = events part_002.main env
     ∧ status main_c.main env = Some 1%Z)
  ∧ (status part_002.main env = Some 0%Z →
     status main_c.main env
     = Some (if decide (png_access_version_number env = 0) then 1%Z else 0%Z))
  ∧ ((run part_002.main env).1 = Undefined ↔ (run main_c.main env).1 = Undefined).
Proof.
  unfold status, events, final.
  destruct (main_c_main_runs env); destruct (part_002_main_runs env); frames.
  all: try (exfalso; first [congruence | lia]).
  all: split_and!; try done.
  all: try (eexists [_]; reflexivity).
  all: try (exists []; reflexivity).
  all: try (intros _; by rewrite ?decide_True, ?decide_False by done).
Qed.



(** ** What [%s] reads from the decompressed array *)

(** Where [strlen] stops there is a zero byte, and none before it. *)
Lemma strlen_stops (p : list byte) n :
  strlen p = Some n → p !! n = Some x00 ∧ x00 ∉ take n p.
Proof.
  revert n. induction p as [|b p IH]; intros n Hn; [done|].
  destruct (decide (b = x00)) as [->|Hb].
  - injection Hn as <-. split; [done|]. simpl. apply not_elem_of_nil.
  - assert (strlen (b :: p) = S <$> strlen p) as E by (by destruct b).
    rewrite E in Hn. destruct (strlen p) as [m|]; simpl in Hn; [|done].
    injection Hn as <-. destruct (IH m eq_refl) as [Hz Hno].
    split; [done|]. simpl. rewrite not_elem_of_cons. split; [congruence|done].
Qed.

(** After a zero byte is stored at [i], [strlen] stops at [i] or before; at
    [i] itself when no zero byte comes earlier. *)
Lemma strlen_terminated (p : list byte) i :
  (i < length p)%nat →
  ∃ n, strlen (<[i := x00]> p) = Some n ∧ (n ≤ i)%nat
     ∧ (x00 ∉ take i p → n = i).
Proof.
  intros Hi. destruct (strlen_insert_lt p i Hi) as (n & Hn & Hle).
  exists n. split_and!; [done..|].
  intros Hno. destruct (decide (n = i)) as [|Hne]; [done|]. exfalso.
  destruct (strlen_stops _ _ Hn) as [Hz _].
  rewrite list_lookup_insert_ne in Hz by done.
  apply Hno, elem_of_take. exists n. split; [done|lia].
Qed.

(** X5.  The [%s] that prints the decompressed array never reads past the
    terminator the program stored.  What it prints holds no zero byte, is a
    prefix of the [decompressedSize] decompressed bytes, and is all of them
    exactly when they hold no zero byte: decompressed data with a zero byte
    inside is printed only up to that byte.  Both versions. *)
Theorem X5_printed_string main env :
  main = main_c.main ∨ main = part_002.main →
  Uncompress Z_OK ∈ events main env →
  decompressedSize (final main env) < 100 →
  let data := take (N.to_nat (decompressedSize (final main env)))
                   (decompressed (final main env)) in
  ∃ s, Stdout ("Dekomprimiert: " +:+ s +:+ LF) ∈ events main env
     ∧ (x00 ∉ String.list_byte_of_string s)
     ∧ (String.list_byte_of_string s `prefix_of` data)
     ∧ (x00 ∉ data ↔ String.list_byte_of_string s = data).
Proof.
  intros Hmain Hu Hlt data.
  assert (∃ s, Stdout ("Dekomprimiert: " +:+ s +:+ LF) ∈ events main env
             ∧ c_str (decompressed (final main env)) = Some s
             ∧ decompressed (final main env) = decompressed_terminated env
             ∧ decompressedSize (final main env) = destLen (uncompress_reply env))
    as (s & Hin & Hs & Hd & Hn).
  { revert Hu Hlt. clear data.
    destruct Hmain as [-> | ->]; [main_c_paths env | part_002_paths env];
      intros Hu Hlt; members; simplify_eq; try done; try lia.
    all: exists s; split_and!; [listed|done..]. }
  exists s. split; [done|]. subst data. rewrite Hd, Hn in *. clear Hd Hn Hin Hu.
  unfold c_str in Hs. unfold decompressed_terminated in *.
  destruct (strlen_terminated (decompressed_filled env)
              (N.to_nat (destLen (uncompress_reply env)))) as (n & Hstr & Hle & Hall);
    [rewrite length_decompressed_filled; lia|].
  rewrite Hstr in Hs. simpl in Hs. injection Hs as <-.
  rewrite String.list_byte_of_string_of_list_byte.
  destruct (strlen_stops _ _ Hstr) as [_ Hno].
  rewrite take_insert_ge in * by lia.
  set (sz := N.to_nat (destLen (uncompress_reply env))) in *.
  assert (take n (decompressed_filled env)
          = take n (take sz (decompressed_filled env))) as Htake
    by (rewrite take_take; f_equal; lia).
  rewrite (take_insert_ge _ sz sz) by done.
  split_and!.
  - done.
  - rewrite Htake. apply prefix_take.
  - split.
    + intros Hfree. by rewrite (Hall Hfree).
    + intros <-. done.
Qed.

Lemma X5_printed_string_witness :
  (Uncompress Z_OK ∈ events main_c.main embedded_zero
   ∧ decompressedSize (final main_c.main embedded_zero) = 8)
  ∧ Stdout ("Dekomprimiert: Good" +:+ LF) ∈ events main_c.main embedded_zero
  ∧ ∃ s, Stdout ("Dekomprimiert: " +:+ s +:+ LF) ∈ events main_c.main embedded_zero
       ∧ x00 ∉ String.list_byte_of_string s.
Proof.
  split; [split; [found|done]|]. split; [found|].
  destruct (X5_printed_string main_c.main embedded_zero) as (s & Hin & Hno & _);
    [by left|found|by vm_compute|].
  exists s. split; [exact Hin|exact Hno].
Defined.

(** ** Uninitialised memory *)

(** With the contract, [uncompress] is handed exactly what [compress]
    stored. *)
Lemma uncompress_reply_contract env :
  zlib_contract (libz env) → ret (compress_reply env) = Z_OK →
  uncompress_reply env = uncompress (libz env) 100 (dest (compress_reply env)).
Proof.
  intros contract E1. unfold uncompress_reply.
  by destruct (compressed_prefix env contract E1) as [_ ->].
Qed.

(** X6.  With a library that keeps the contract, a run does not depend on
    what the uninitialised arrays happen to hold: two environments that
    differ only in those bytes give the same exit status and the same
    events.  Both versions. *)
Theorem X6_stale_bytes_unobserved main L ver v old old' :
  main = main_c.main ∨ main = part_002.main →
  zlib_contract L →
  status main (Environment L ver v old) = status main (Environment L ver v old')
  ∧ events main (Environment L ver v old) = events main (Environment L ver v old').
Proof.
  intros Hmain contract.
  set (env := Environment L ver v old). set (env' := Environment L ver v old').
  assert (compress_reply env' = compress_reply env) as Hc by reflexivity.
  assert (ret (compress_reply env) = Z_OK →
          uncompress_reply env' = uncompress_reply env) as Hu.
  { intros E1. rewrite !uncompress_reply_contract; done. }
  assert (∀ e s, zlib_contract (libz e) →
            ret (compress_reply e) = Z_OK → ret (uncompress_reply e) = Z_OK →
            c_str (decompressed_terminated e) = Some s → s = text) as Hs.
  { intros e s ct E1 E3 Hstr.
    rewrite (decompressed_terminated_input e ct E1 E3) in Hstr.
    change (Some text = Some s) in Hstr. congruence. }
  unfold status, events, final.
  destruct Hmain as [-> | ->].
  - destruct (main_c_main_runs env); destruct (main_c_main_runs env'); frames.
    all: rewrite ?Hc in *.
    all: try (rewrite Hu in * by done).
    all: try (exfalso; first [congruence | lia]).
    all: try done.
    all: repeat match goal with
         | H : c_str (decompressed_terminated ?e) = Some ?s |- _ =>
             apply (Hs e s contract) in H; [subst s|by rewrite ?Hc, ?Hu..]
         end.
    all: done.
  - destruct (part_002_main_runs env); destruct (part_002_main_runs env'); frames.
    all: rewrite ?Hc in *.
    all: try (rewrite Hu in * by done).
    all: try (exfalso; first [congruence | lia]).
    all: try done.
    all: repeat match goal with
         | H : c_str (decompressed_terminated ?e) = Some ?s |- _ =>
             apply (Hs e s contract) in H; [subst s|by rewrite ?Hc, ?Hu..]
         end.
    all: done.
Qed.

Lemma X6_stale_bytes_unobserved_witness :
  zlib_contract (zlib_of_codec Stored.stored)
  ∧ status main_c.main (Environment (zlib_of_codec Stored.stored) "1.6.43" 10643 stale)
    = status main_c.main
        (Environment (zlib_of_codec Stored.stored) "1.6.43" 10643 (λ _, x00))
  ∧ events main_c.main (Environment (zlib_of_codec Stored.stored) "1.6.43" 10643 stale)
    = events main_c.main
        (Environment (zlib_of_codec Stored.stored) "1.6.43" 10643 (λ _, x00)).
Proof.
  split; [exact stored_contract|].
  apply (X6_stale_bytes_unobserved main_c.main); [by left|exact stored_contract].
Defined.

(** X7.  The contract is what keeps the stale bytes out of sight.  The
    program hands [uncompress] the first [compressedSize] bytes of the array
    without knowing how many were stored, so with a library whose [compress]
    reports more than it stored, the exit status depends on what the array
    held before. *)
Theorem X7_stale_bytes_observed :
  ∃ L ver v old old',
    (∀ cap src, ret (compress L cap src) = Z_OK
                ∧ N.of_nat (length (dest (compress L cap src)))
                  < destLen (compress L cap src))
    ∧ status main_c.main (Environment L ver v old) = Some 0%Z
    ∧ status main_c.main (Environment L ver v old') = Some 1%Z.
Proof.
  exists overreporting, "1.6.43"%string, 10643, (λ _, x00), (λ _, x01).
  split; [intros; simpl; split; [done|lia]|]. by vm_compute.
Qed.

(** ** Calls, arrays and defined behaviour *)

(** X8.  No routine is called twice and none is retried.  The calls of a
    run are [compress] alone, or a successful [compress] followed by
    [uncompress], or both successful followed by the version query: the
    program moves on only after a success. *)
Theorem X8_calls_in_order env :
  (∃ s, calls (events main_c.main env) = [Compress s])
  ∨ (∃ s, calls (events main_c.main env) = [Compress Z_OK; Uncompress s])
  ∨ calls (events main_c.main env)
    = [Compress Z_OK; Uncompress Z_OK;
       PngAccessVersionNumber (png_access_version_number env)].
Proof.
  main_c_paths env.
  - left. by eexists.
  - left. by eexists.
  - right; left. by eexists.
  - right; left. by eexists.
  - right; right.
    match goal with H : png_access_version_number env = 0 |- _ => by rewrite H end.
  - right; right. done.
Qed.

(** X9.  After a successful round trip with a library that keeps the
    contract, the arrays hold what was stored and nothing else has moved:
    [decompressed] is the text, the terminator, and the 67 bytes that were
    there before; [compressed] is the output of [compress] followed by the
    bytes that were there before.  Both versions. *)
Theorem X9_arrays_after_round_trip main env :
  main = main_c.main ∨ main = part_002.main →
  zlib_contract (libz env) →
  Compress Z_OK ∈ events main env → Uncompress Z_OK ∈ events main env →
  decompressed (final main env)
    = input ++ x00 :: drop 33 (decompressed (entry env))
  ∧ compressed (final main env)
    = dest (compress (libz env) 100 input)
      ++ drop (N.to_nat (compressedSize (final main env))) (compressed (entry env)).
Proof.
  intros [-> | ->] contract; [main_c_paths env | part_002_paths env];
    intros Hc Hu; members; simplify_eq; try done; by_contract env contract;
    try lia.
  all: split; [by apply decompressed_terminated_input|].
  all: unfold compressed_filled, blit, compress_reply in *.
  all: rewrite (compress_destLen _ contract 100 input) by done.
  all: by rewrite Nat2N.id.
Qed.

Lemma X9_arrays_after_round_trip_witness :
  (zlib_contract (libz reference)
   ∧ Compress Z_OK ∈ events main_c.main reference
   ∧ Uncompress Z_OK ∈ events main_c.main reference)
  ∧ decompressed (final main_c.main reference)
    = input ++ x00 :: (stale <$> seq 133 67)
  ∧ compressed (final main_c.main reference)
    = Stored.encode input ++ (stale <$> seq 43 57).
Proof.
  split; [split_and!; [exact stored_contract|found..]|].
  destruct (X9_arrays_after_round_trip main_c.main reference) as [Hd Hc];
    [by left|exact stored_contract|found..|].
  split; [exact Hd|exact Hc].
Defined.



(** X11.  With a library that keeps the contract, every run of either
    version has defined behaviour: the program returns, and it returns 0
    or 1. *)
Theorem X11_contract_keeps_runs_defined main env :
  main = main_c.main ∨ main = part_002.main →
  zlib_contract (libz env) →
  (run main env).1 ≠ Undefined
  ∧ (status main env = Some 0%Z ∨ status main env = Some 1%Z).
Proof.
  intros Hmain contract.
  destruct Hmain as [-> | ->]; [main_c_paths env | part_002_paths env];
    by_contract env contract; first [lia | by eauto].
Qed.

Lemma X11_contract_keeps_runs_defined_witness :
  (zlib_contract (libz reference) ∧ zlib_contract (libz no_version))
  ∧ status main_c.main reference = Some 0%Z
  ∧ status main_c.main no_version = Some 1%Z
  ∧ status part_002.main no_version = Some 0%Z.
Proof.
  destruct (X11_contract_keeps_runs_defined main_c.main reference) as [_ H1];
    [by left|exact stored_contract|].
  destruct (X11_contract_keeps_runs_defined main_c.main no_version) as [_ H2];
    [by left|exact stored_contract|].
  destruct (X11_contract_keeps_runs_defined part_002.main no_version) as [_ H3];
    [by right|exact stored_contract|].
  split_and!; [exact stored_contract|exact stored_contract|..].
  - destruct H1 as [H1|H1]; [exact H1|by vm_compute in H1].
  - destruct H2 as [H2|H2]; [by vm_compute in H2|exact H2].
  - destruct H3 as [H3|H3]; [exact H3|by vm_compute in H3].
Defined.
